(** * The plugin release script, [scripts/deploy/deploy.py]

    A shallow embedding of the release script and the properties of its
    control flow: channel selection, version bump, artifact name, the
    manifest restore around packaging, the exit status and the
    verification of the upload.

    The script is a straight line of shell invocations.  Everything the
    script cannot decide by itself (the return code of each command it
    spawns, the output of [git rev-parse HEAD], the process environment,
    the page served by the plugin repository) is gathered in a record
    [World]; the script is then a function of its command line, of the
    manifest found on disk and of that record.  The script's own state is
    threaded through a small state-and-exception monad: the content of
    [resources/META-INF/plugin.xml] on disk and the trace of what the
    script did (log records, commands spawned, files written).

    What the model takes for granted:
    - the command line has been parsed: a run starts from the value of
      [args.tag], the empty string when [--tag] is not given;
    - strings are byte strings that [format] inserts as they are, as under
      the Python 2 interpreter the script was written for;
    - of all the commands spawned, only [git checkout] touches the manifest
      in the working tree, and it either succeeds and puts the committed
      content back or fails and leaves the file alone;
    - the committed manifest is what [git checkout <path>] puts back, the
      entry of the index, which is the content of the last commit unless a
      change to the manifest was staged;
    - [git rev-parse HEAD] prints a hexadecimal object name: the verdict of
      [grep] is modelled for such a pattern, which neither the shell nor
      [grep] reads as anything but itself;
    - [tree.write] and the logging calls do not fail;
    - the manifest on disk is seen as ElementTree parses it, up to the
      serialisation of the tree. *)

From Stdlib Require Import String Ascii List ZArith Bool.
From Stdlib Require Import DecimalString.
Import ListNotations.

Set Warnings "-register-all".

Local Open Scope list_scope.
Local Open Scope string_scope.
Local Open Scope Z_scope.

(** ** Module-level constants (lines 9-14) *)

Definition PLUGIN_XML : string := "resources/META-INF/plugin.xml".
Definition PLUGIN_ID : Z := 7412.
Definition PLUGIN_JAR : string := "dist/intellij-pants-plugin-publish.jar".
Definition CHANNEL_BLEEDING_EDGE : string := "BleedingEdge".
Definition CHANNEL_STABLE : string := "Stable".
Definition REPO : string := "https://plugins.jetbrains.com/plugin/7412".

(** ** Python values the script formats into strings *)

Module Py.

(** [str(n)] for an integer. *)
Definition str_int (n : Z) : string := NilEmpty.string_of_int (Z.to_int n).

(** [str(x)] where [x] is a string or [None]; [None] is how ElementTree
    reports the text of an element without character data. *)
Definition str_opt (x : option string) : string :=
  match x with
  | Some s => s
  | None => "None"
  end.

(** Truth value of a string in a condition: the empty string is false. *)
Definition truthy (s : string) : bool := negb (s =? "")%string.

(** The characters [str.strip()] removes: tab, line feed, vertical tab,
    form feed, carriage return and space. *)
Definition is_space (c : ascii) : bool :=
  let n := N_of_ascii c in
  ((9 <=? n)%N && (n <=? 13)%N) || (n =? 32)%N.

Fixpoint lstrip (s : string) : string :=
  match s with
  | EmptyString => EmptyString
  | String c r => if is_space c then lstrip r else s
  end.

Fixpoint rstrip (s : string) : string :=
  match s with
  | EmptyString => EmptyString
  | String c r =>
      match rstrip r with
      | EmptyString => if is_space c then EmptyString else String c EmptyString
      | r' => String c r'
      end
  end.

Definition strip (s : string) : string := rstrip (lstrip s).

End Py.

(** ** The manifest as ElementTree sees it

    An element has a tag, optional character data and children.  Attributes
    and tails are left out: the script neither reads nor changes them. *)

Inductive Element : Type :=
| Elem (tag : string) (text : option string) (children : list Element).

Definition tag_of (e : Element) : string :=
  match e with Elem t _ _ => t end.

Definition text_of (e : Element) : option string :=
  match e with Elem _ x _ => x end.

Definition children_of (e : Element) : list Element :=
  match e with Elem _ _ cs => cs end.

(** [Element.find(path)] for a path that is a plain tag: the first direct
    child with that tag, or [None]. *)
Fixpoint find_child (path : string) (kids : list Element) : option Element :=
  match kids with
  | [] => None
  | k :: rest => if (tag_of k =? path)%string then Some k else find_child path rest
  end.

Definition find (e : Element) (path : string) : option Element :=
  find_child path (children_of e).

(** [root.find(path).text = new]: the element [find] returned is the child
    itself, not a copy, so the assignment changes the tree that is written
    back later. *)
Fixpoint assign_text_child (path new : string) (kids : list Element) : list Element :=
  match kids with
  | [] => []
  | Elem t x cs :: rest =>
      if (t =? path)%string then Elem t (Some new) cs :: rest
      else Elem t x cs :: assign_text_child path new rest
  end.

Definition assign_text (root : Element) (path new : string) : Element :=
  match root with
  | Elem t x cs => Elem t x (assign_text_child path new cs)
  end.

(** What is at the manifest's path in the working tree. *)
Inductive FileContent : Type :=
| Absent
| NotXml (raw : string)
| Xml (root : Element).

(** ** The shell tools the script relies on *)

Module Sh.

Definition newline : ascii := ascii_of_nat 10.

(** [s] has [pat] somewhere inside. *)
Fixpoint contains (pat s : string) : bool :=
  String.prefix pat s ||
  match s with
  | EmptyString => false
  | String _ r => contains pat r
  end.

(** The lines of a text, as [grep] reads them. *)
Fixpoint lines (s : string) : list string :=
  match s with
  | EmptyString => [EmptyString]
  | String c r =>
      if Ascii.eqb c newline then EmptyString :: lines r
      else match lines r with
           | [] => [String c EmptyString]
           | l :: ls => String c l :: ls
           end
  end.

Fixpoint newline_free (s : string) : bool :=
  match s with
  | EmptyString => true
  | String c r => negb (Ascii.eqb c newline) && newline_free r
  end.

(** Exit status of [... | grep pat] on the text [input], for a pattern
    made of ordinary characters (a commit name is hexadecimal): 0 when a
    line contains the pattern, 1 when none does, 2 when the pattern is
    missing from the command line. *)
Definition grep (pat input : string) : Z :=
  if (pat =? "")%string then 2
  else if existsb (contains pat) (lines input) then 0
  else 1.

End Sh.

(** ** The outside world *)

Record World : Type := mkWorld {
  (** the manifest as version control has it, which [git checkout] puts
      back in the working tree *)
  committed : FileContent;
  (** return code of the [git checkout] at line 42 *)
  checkout_before_rc : Z;
  (** return code and standard output of [git rev-parse HEAD] *)
  rev_parse : Z * string;
  (** return code of the build command, line 72 *)
  build_rc : Z;
  (** return code of the packaging command, line 86 *)
  packaging_rc : Z;
  (** return code of the [git checkout] at line 91 *)
  checkout_after_rc : Z;
  (** [os.environ] *)
  environ : list (string * string);
  (** return code of the upload command, line 108 *)
  upload_rc : Z;
  (** what [curl] prints for the plugin page (empty when it fails) *)
  registry_page : string
}.

(** ** What a run leaves behind *)

Inductive Level : Type := INFO | ERROR.

Inductive Event : Type :=
| ELog (level : Level) (msg : string)
| ERun (cmd : string)
| EWrite (path : string) (root : Element).

Inductive Exn : Type :=
| SystemExit (code : Z)
| CalledProcessError (returncode : Z) (cmd : string)
| IOError
| ParseError
| KeyError (key : string)
| NameError (name : string).

Record State : Type := mkState {
  disk : FileContent;
  trace : list Event
}.

Inductive Result (A : Type) : Type :=
| Ok (a : A)
| Raise (e : Exn).

Arguments Ok {A} a.
Arguments Raise {A} e.

(** ** The monad of the script: state and exceptions *)

Definition M (A : Type) : Type := State -> Result A * State.

Definition ret {A} (a : A) : M A := fun st => (Ok a, st).

Definition raise {A} (e : Exn) : M A := fun st => (Raise e, st).

Definition bind {A B} (m : M A) (k : A -> M B) : M B :=
  fun st =>
    match m st with
    | (Ok a, st') => k a st'
    | (Raise e, st') => (Raise e, st')
    end.

Declare Scope script_scope.
Delimit Scope script_scope with script.
Notation "x <- c ;; k" := (bind c (fun x => k))
  (at level 61, c at next level, right associativity) : script_scope.
Notation "c ;; k" := (bind c (fun _ => k))
  (at level 61, right associativity) : script_scope.
Local Open Scope script_scope.

(** [try: body finally: cleanup].  The cleanup runs whatever the body did;
    an exception of the cleanup replaces the body's, otherwise the body's
    result (value or exception) stands. *)
Definition try_finally {A} (body : M A) (cleanup : M unit) : M A :=
  fun st =>
    let '(r, st1) := body st in
    match cleanup st1 with
    | (Ok _, st2) => (r, st2)
    | (Raise e, st2) => (Raise e, st2)
    end.

Definition emit (e : Event) : M unit :=
  fun st => (Ok tt, mkState (disk st) (trace st ++ [e])).

Definition set_disk (c : FileContent) : M unit :=
  fun st => (Ok tt, mkState c (trace st)).

Definition log (l : Level) (msg : string) : M unit := emit (ELog l msg).

(** [exit(code)] *)
Definition exit {A} (code : Z) : M A := raise (SystemExit code).

(** [subprocess.check_output(cmd, shell=True)] for a command that ends with
    return code [rc]: a non-zero code raises. *)
Definition check_output (cmd : string) (rc : Z) : M unit :=
  emit (ERun cmd) ;;
  if rc =? 0 then ret tt else raise (CalledProcessError rc cmd).

(** [subprocess.call(cmd, shell=True)]: the return code is the value. *)
Definition call (cmd : string) (rc : Z) : M Z :=
  emit (ERun cmd) ;; ret rc.

(** [os.environ[key]] *)
Fixpoint lookup (key : string) (env : list (string * string)) : option string :=
  match env with
  | [] => None
  | (k, v) :: rest => if (k =? key)%string then Some v else lookup key rest
  end.

Definition getenv (w : World) (key : string) : M string :=
  match lookup key (environ w) with
  | Some v => ret v
  | None => raise (KeyError key)
  end.

(** [ET.parse(PLUGIN_XML).getroot()] *)
Definition ET_parse : M Element :=
  fun st =>
    match disk st with
    | Xml root => (Ok root, st)
    | NotXml _ => (Raise ParseError, st)
    | Absent => (Raise IOError, st)
    end.

(** [tree.write(PLUGIN_XML)] *)
Definition tree_write (root : Element) : M unit :=
  emit (EWrite PLUGIN_XML root) ;; set_disk (Xml root).

(** ** The script *)

Definition checkout_cmd : string := "git checkout " ++ PLUGIN_XML.

Definition build_cmd : string :=
  "rm -rf dist;" ++
  "./pants binary scripts/sdk:intellij-pants-plugin-publish".

Definition packaging_cmd (zip : string) : string :=
  "mkdir -p tmp/pants/lib && " ++
  "cp " ++ PLUGIN_JAR ++ " tmp/pants/lib && " ++
  "cd tmp && " ++
  "zip -r " ++ zip ++ " pants/ &&" ++
  "cd .. &&" ++
  "cp tmp/" ++ zip ++ " " ++ zip ++ " &&" ++
  "rm -rf tmp".

Definition upload_cmd (channel username password zip : string) : string :=
  "java -jar scripts/deploy/plugin-repository-rest-client-0.3.SNAPSHOT-all.jar upload " ++
  "-host https://plugins.jetbrains.com/ " ++
  "-channel " ++ channel ++ " " ++
  "-username " ++ username ++ " " ++
  "-password '" ++ password ++ "' " ++
  "-plugin " ++ Py.str_int PLUGIN_ID ++ " " ++
  "-file " ++ zip.

Definition verify_cmd (sha : string) : string :=
  "curl " ++ REPO ++ " | grep " ++ sha.

(** [git checkout resources/META-INF/plugin.xml] through [check_output]:
    when git succeeds the working-tree file is the committed one again;
    when it fails the file is as it was and the call raises. *)
Definition git_checkout (w : World) (rc : Z) : M unit :=
  emit (ERun checkout_cmd) ;;
  if rc =? 0 then set_disk (committed w)
  else raise (CalledProcessError rc checkout_cmd).

(** Lines 21-29. *)
Definition get_head_sha (w : World) : M string :=
  let cmd := "git rev-parse HEAD" in
  emit (ERun cmd) ;;
  let '(returncode, output) := rev_parse w in
  if negb (returncode =? 0) then
    log ERROR (cmd ++ " failed.") ;;
    exit 1
  else
    ret (Py.strip output).

(** The variables of the main block that later lines read.  [sha] is
    assigned on one branch only: [None] stands for a name that was never
    bound. *)
Record Release : Type := mkRelease {
  channel : string;
  version_text : option string;
  sha : option string;
  zip_name : string
}.

(** Lines 42-65: restore the manifest, read the version, pick the channel,
    bump the version on the bleeding-edge channel, name the artifact. *)
Definition prepare (w : World) (tag : string) : M Release :=
  git_checkout w (checkout_before_rc w) ;;
  root <- ET_parse ;;
  match find root "version" with
  | None =>
      log ERROR ("version tag not found in " ++ PLUGIN_XML) ;;
      exit 1
  | Some version =>
      vars <-
        (if Py.truthy tag then
           ret (CHANNEL_STABLE, text_of version, None)
         else
           sha <- get_head_sha w ;;
           log INFO ("Append current git sha, " ++ sha ++ ", to plugin version") ;;
           let text := Py.str_opt (text_of version) ++ "." ++ sha in
           tree_write (assign_text root "version" text) ;;
           ret (CHANNEL_BLEEDING_EDGE, Some text, Some sha)) ;;
      let '(channel, text, sha) := vars in
      log INFO ("Releasing " ++ Py.str_opt text ++ " to " ++ channel ++ " channel") ;;
      ret (mkRelease channel text sha ("pants_" ++ Py.str_opt text ++ ".zip"))
  end.

(** Lines 68-91: build and zip, then put the manifest back whatever
    happened. *)
Definition package (w : World) (rel : Release) : M unit :=
  try_finally
    (log INFO build_cmd ;;
     check_output build_cmd (build_rc w) ;;
     log INFO "Packaging into a zip" ;;
     log INFO (packaging_cmd (zip_name rel)) ;;
     check_output (packaging_cmd (zip_name rel)) (packaging_rc w) ;;
     log INFO (zip_name rel ++ " built successfully"))
    (git_checkout w (checkout_after_rc w)).

(** Lines 93-108. *)
Definition upload (w : World) (rel : Release) : M unit :=
  username <- getenv w "USERNAME" ;;
  password <- getenv w "PASSWORD" ;;
  let cmd := upload_cmd (channel rel) username password (zip_name rel) in
  log INFO "Uploading..." ;;
  call cmd (upload_rc w) ;;
  ret tt.

(** Lines 113-118.  Reading [sha] when it was never bound raises
    [NameError] while the command is being formatted; the handler catches
    [CalledProcessError] only. *)
Definition verify (w : World) (rel : Release) : M unit :=
  match sha rel with
  | None => raise (NameError "sha")
  | Some sha =>
      emit (ERun (verify_cmd sha)) ;;
      if Sh.grep sha (registry_page w) =? 0 then
        log INFO "Deploy succeeded."
      else
        log ERROR ("Deploy failed: not available on " ++ REPO)
  end.

Definition main (w : World) (tag : string) : M unit :=
  rel <- prepare w tag ;;
  package w rel ;;
  upload w rel ;;
  verify w rel.

(** ** Running the script *)

(** The exit status of the interpreter: 0 when the script runs to its end,
    the code of [exit], 1 for any other exception that nothing caught. *)
Definition exit_status {A} (r : Result A) : Z :=
  match r with
  | Ok _ => 0
  | Raise (SystemExit code) => code
  | Raise _ => 1
  end.

Definition start (manifest : FileContent) : State := mkState manifest [].

(** One run: the command line gives [tag], [manifest] is what the working
    tree holds when the script starts. *)
Definition run (w : World) (tag : string) (manifest : FileContent) : Result unit * State :=
  main w tag (start manifest).

Definition outcome (r : Result unit * State) : Result unit := fst r.
Definition manifest_after (r : Result unit * State) : FileContent := disk (snd r).
Definition events (r : Result unit * State) : list Event := trace (snd r).
Definition exit_code (r : Result unit * State) : Z := exit_status (fst r).

(** ** Sample inputs *)

Module Sample.

Definition plugin_xml (version : string) : Element :=
  Elem "idea-plugin" None
    [ Elem "id" (Some "com.intellij.plugins.pants") [];
      Elem "name" (Some "Pants Support") [];
      Elem "version" (Some version) [];
      Elem "vendor" (Some "Twitter, Inc.") [] ].

Definition no_version_xml : Element :=
  Elem "idea-plugin" None
    [ Elem "id" (Some "com.intellij.plugins.pants") [];
      Elem "name" (Some "Pants Support") [] ].

Definition credentials : list (string * string) :=
  [ ("HOME", "/home/ci"); ("USERNAME", "bot"); ("PASSWORD", "s3cret") ].

(** Every command succeeds and the page lists the new build. *)
Definition all_good : World :=
  {| committed := Xml (plugin_xml "1.2.3");
     checkout_before_rc := 0;
     rev_parse := (0, String "a" (String "b" (String "c" (String "d"
                     (String "1" (String "2" (String "3"
                     (String Sh.newline EmptyString))))))));
     build_rc := 0;
     packaging_rc := 0;
     checkout_after_rc := 0;
     environ := credentials;
     upload_rc := 0;
     registry_page := "<html>" ++ String Sh.newline "<td>1.2.3.abcd123</td>" |}.

(** The same, except that zipping the jar fails. *)
Definition packaging_fails : World :=
  {| committed := committed all_good;
     checkout_before_rc := 0;
     rev_parse := rev_parse all_good;
     build_rc := 0;
     packaging_rc := 12;
     checkout_after_rc := 0;
     environ := credentials;
     upload_rc := 0;
     registry_page := registry_page all_good |}.

(** The same as [all_good], except that the checkout after packaging
    fails (another git process holds the index lock, say). *)
Definition restore_fails : World :=
  {| committed := committed all_good;
     checkout_before_rc := 0;
     rev_parse := rev_parse all_good;
     build_rc := 0;
     packaging_rc := 0;
     checkout_after_rc := 128;
     environ := credentials;
     upload_rc := 0;
     registry_page := registry_page all_good |}.

(** The committed manifest has no [version] element. *)
Definition unversioned : World :=
  {| committed := Xml no_version_xml;
     checkout_before_rc := 0;
     rev_parse := rev_parse all_good;
     build_rc := 0;
     packaging_rc := 0;
     checkout_after_rc := 0;
     environ := credentials;
     upload_rc := 0;
     registry_page := registry_page all_good |}.

(** A working tree whose manifest was edited and not committed. *)
Definition edited_manifest : FileContent := Xml (plugin_xml "9.9.9").

End Sample.

(** ** Vocabulary of the statements *)

(** The [version] element of a manifest, if it parses and has one. *)
Definition version_of (c : FileContent) : option Element :=
  match c with
  | Xml root => find root "version"
  | _ => None
  end.

Definition has_version (c : FileContent) : bool :=
  match version_of c with
  | Some _ => true
  | None => false
  end.

Definition has_key (key : string) (env : list (string * string)) : bool :=
  match lookup key env with
  | Some _ => true
  | None => false
  end.

(** Lines 42-65 go through: the checkout works, the committed manifest has
    a version, and the commit name resolves when it is asked for. *)
Definition ready (w : World) (tag : string) : bool :=
  (checkout_before_rc w =? 0) && has_version (committed w) &&
  (Py.truthy tag || (fst (rev_parse w) =? 0)).

(** Every step whose failure the script lets through succeeds. *)
Definition steps_succeed (w : World) (tag : string) : bool :=
  ready w tag &&
  (build_rc w =? 0) && (packaging_rc w =? 0) && (checkout_after_rc w =? 0) &&
  has_key "USERNAME" (environ w) && has_key "PASSWORD" (environ w).

Definition with_upload_rc (w : World) (rc : Z) : World :=
  {| committed := committed w;
     checkout_before_rc := checkout_before_rc w;
     rev_parse := rev_parse w;
     build_rc := build_rc w;
     packaging_rc := packaging_rc w;
     checkout_after_rc := checkout_after_rc w;
     environ := environ w;
     upload_rc := rc;
     registry_page := registry_page w |}.


(** Every character of [s] passes the test [p]. *)
Fixpoint all_chars (p : ascii -> bool) (s : string) : bool :=
  match s with
  | EmptyString => true
  | String c r => p c && all_chars p r
  end.

(** A word without white space, as the object name [git rev-parse] prints. *)
Definition no_space (s : string) : bool :=
  all_chars (fun c => negb (Py.is_space c)) s.

(** Further worlds, each one step away from [Sample.all_good]. *)
Module Cases.

Definition base : World := Sample.all_good.

Definition checkout_refused : World :=
  mkWorld (committed base) 128 (rev_parse base) 0 0 0 (environ base) 0
    (registry_page base).

Definition garbled_manifest : World :=
  mkWorld (NotXml "<idea-plugin><version>1.2.3</idea-plugin>") 0 (rev_parse base)
    0 0 0 (environ base) 0 (registry_page base).

Definition not_a_repository : World :=
  mkWorld (committed base) 0 (128, "") 0 0 0 (environ base) 0
    (registry_page base).

Definition build_fails : World :=
  mkWorld (committed base) 0 (rev_parse base) 1 0 0 (environ base) 0
    (registry_page base).

Definition build_and_restore_fail : World :=
  mkWorld (committed base) 0 (rev_parse base) 1 0 128 (environ base) 0
    (registry_page base).

Definition no_password : World :=
  mkWorld (committed base) 0 (rev_parse base) 0 0 0
    [("HOME", "/home/ci"); ("USERNAME", "bot")] 0 (registry_page base).

Definition page_without_build : World :=
  mkWorld (committed base) 0 (rev_parse base) 0 0 0 (environ base) 1
    "<html><td>1.2.2.0f0f0f0</td></html>".

(** A manifest whose version element is empty, [<version/>]. *)
Definition empty_version_xml : Element :=
  Elem "idea-plugin" None
    [ Elem "name" (Some "Pants Support") [];
      Elem "version" None [];
      Elem "vendor" (Some "Twitter, Inc.") [] ].

Definition empty_version : World :=
  mkWorld (Xml empty_version_xml) 0 (rev_parse base) 0 0 0 (environ base) 0
    (registry_page base).

(** A manifest with a second, stray version element. *)
Definition two_versions_xml : Element :=
  Elem "idea-plugin" None
    [ Elem "name" (Some "Pants Support") [];
      Elem "version" (Some "1.2.3") [];
      Elem "change-notes" (Some "Faster imports") [];
      Elem "version" (Some "0.0.1") [] ].

End Cases.

(** The digits of an object name as git prints it: 0-9 and a-f. *)
Definition is_hex_digit (c : ascii) : bool :=
  let n := N_of_ascii c in
  ((48 <=? n)%N && (n <=? 57)%N) || ((97 <=? n)%N && (n <=? 102)%N).

(** A non-empty word of hexadecimal digits. *)
Definition hex_name (s : string) : bool :=
  negb (s =? "")%string && all_chars is_hex_digit s.


(** ** Proof support *)

Ltac script_unfold :=
  unfold run, start, outcome, manifest_after, events, exit_code, main,
    prepare, package, upload, verify, get_head_sha, git_checkout,
    check_output, call, getenv, try_finally, tree_write, ET_parse, log,
    exit, emit, set_disk, bind, ret, raise.

Ltac script_cbn :=
  cbn -[String.append checkout_cmd build_cmd packaging_cmd upload_cmd
        verify_cmd Z.eqb Py.strip Py.str_opt Py.truthy Sh.grep find
        assign_text lookup].

Ltac script_simpl :=
  script_cbn;
  repeat (progress (change (0 =? 0) with true;
                    change (Py.truthy "") with false);
          script_cbn).

Ltac script_step :=
  match goal with
  | |- context [rev_parse ?w] => destruct (rev_parse w) as [? ?] eqn:?
  | |- context [Z.eqb ?rc 0] => destruct (Z.eqb rc 0) eqn:?
  | |- context [Py.truthy ?t] => destruct (Py.truthy t) eqn:?
  | |- context [lookup ?k ?e] => destruct (lookup k e) eqn:?
  | |- context [find ?r ?p] => destruct (find r p) eqn:?
  | |- context [match ?c with Absent => _ | NotXml _ => _ | Xml _ => _ end] =>
      destruct c eqn:?
  end; script_simpl.

Ltac script_cases := script_unfold; script_simpl; repeat script_step.

(** *** Strings and truth values *)

Lemma truthy_true (s : string) : Py.truthy s = true <-> s <> "".
Proof.
  unfold Py.truthy. rewrite negb_true_iff. apply String.eqb_neq.
Qed.

Lemma truthy_false (s : string) : Py.truthy s = false <-> s = "".
Proof.
  unfold Py.truthy. rewrite negb_false_iff. apply String.eqb_eq.
Qed.

(** *** The element tree *)

Lemma find_child_assign (path new : string) (kids : list Element) (v : Element) :
  find_child path kids = Some v ->
  find_child path (assign_text_child path new kids)
  = Some (Elem (tag_of v) (Some new) (children_of v)).
Proof.
  induction kids as [|[t x cs] rest IH]; cbn; [discriminate|].
  destruct (t =? path)%string eqn:E; cbn; rewrite E.
  - intros [= <-]. reflexivity.
  - exact IH.
Qed.

Lemma find_assign_text (root : Element) (path new : string) (v : Element) :
  find root path = Some v ->
  find (assign_text root path new) path
  = Some (Elem (tag_of v) (Some new) (children_of v)).
Proof.
  destruct root as [t x cs]. apply find_child_assign.
Qed.

(** *** Lines 42-65 on each channel *)

Lemma prepare_stable (w : World) (tag : string) (st : State)
      (root version : Element) :
  checkout_before_rc w = 0 ->
  committed w = Xml root ->
  find root "version" = Some version ->
  Py.truthy tag = true ->
  prepare w tag st
  = (Ok (mkRelease CHANNEL_STABLE (text_of version) None
           ("pants_" ++ Py.str_opt (text_of version) ++ ".zip")),
     mkState (Xml root)
       (trace st ++
        [ERun checkout_cmd;
         ELog INFO ("Releasing " ++ Py.str_opt (text_of version) ++ " to "
                    ++ CHANNEL_STABLE ++ " channel")])).
Proof.
  intros Hrc%Z.eqb_eq Hc Hf Ht. script_unfold. script_simpl.
  rewrite Hrc, Hc. script_simpl. rewrite Hf, Ht. script_simpl.
  rewrite <- app_assoc. reflexivity.
Qed.

Lemma prepare_bleeding_edge (w : World) (st : State)
      (root version : Element) (output : string) :
  checkout_before_rc w = 0 ->
  committed w = Xml root ->
  find root "version" = Some version ->
  rev_parse w = (0, output) ->
  let text := Py.str_opt (text_of version) ++ "." ++ Py.strip output in
  prepare w "" st
  = (Ok (mkRelease CHANNEL_BLEEDING_EDGE (Some text) (Some (Py.strip output))
           ("pants_" ++ text ++ ".zip")),
     mkState (Xml (assign_text root "version" text))
       (trace st ++
        [ERun checkout_cmd;
         ERun "git rev-parse HEAD";
         ELog INFO ("Append current git sha, " ++ Py.strip output
                    ++ ", to plugin version");
         EWrite PLUGIN_XML (assign_text root "version" text);
         ELog INFO ("Releasing " ++ text ++ " to "
                    ++ CHANNEL_BLEEDING_EDGE ++ " channel")])).
Proof.
  intros Hrc%Z.eqb_eq Hc Hf Hr text. script_unfold. script_simpl.
  rewrite Hrc, Hc. script_simpl. rewrite Hf, Hr. script_simpl.
  rewrite <- !app_assoc. reflexivity.
Qed.

Lemma ready_inv (w : World) (tag : string) :
  ready w tag = true ->
  checkout_before_rc w = 0 /\
  (exists root version,
      committed w = Xml root /\ find root "version" = Some version) /\
  (tag = "" -> exists output, rev_parse w = (0, output)).
Proof.
  unfold ready, has_version, version_of.
  rewrite !andb_true_iff, orb_true_iff, Z.eqb_eq.
  intros [[Hrc Hv] Hs]. split; [exact Hrc|]. split.
  - destruct (committed w) as [| |root]; try discriminate.
    destruct (find root "version") as [v|] eqn:E; try discriminate.
    exists root, v. auto.
  - intros ->. destruct Hs as [Hs|Hs]; [discriminate|].
    destruct (rev_parse w) as [rc out]. cbn in Hs.
    apply Z.eqb_eq in Hs. subst rc. exists out. reflexivity.
Qed.

Lemma ready_prepare (w : World) (tag : string) (st : State) :
  ready w tag = true ->
  exists rel st',
    prepare w tag st = (Ok rel, st') /\
    channel rel = (if Py.truthy tag then CHANNEL_STABLE else CHANNEL_BLEEDING_EDGE) /\
    zip_name rel = "pants_" ++ Py.str_opt (version_text rel) ++ ".zip".
Proof.
  intros H. destruct (ready_inv _ _ H) as (Hrc & (root & v & Hc & Hf) & Hs).
  destruct (Py.truthy tag) eqn:Ht.
  - eexists _, _. split; [apply (prepare_stable w tag st root v); assumption|].
    split; reflexivity.
  - apply truthy_false in Ht. subst tag. destruct (Hs eq_refl) as [out Hr].
    eexists _, _. split; [apply (prepare_bleeding_edge w st root v out); assumption|].
    split; reflexivity.
Qed.

(** ** Channel, version and artifact name *)

(** C3. Whatever string [--tag] carries: when lines 42-65 go through, the
    release channel is Stable if the tag is not empty and BleedingEdge if it
    is empty. *)
Theorem channel_follows_tag (w : World) (tag : string) (st : State) :
  ready w tag = true ->
  exists rel st',
    prepare w tag st = (Ok rel, st') /\
    (tag <> "" -> channel rel = CHANNEL_STABLE) /\
    (tag = "" -> channel rel = CHANNEL_BLEEDING_EDGE).
Proof.
  intros H. destruct (ready_prepare w tag st H) as (rel & st' & Hp & Hch & _).
  exists rel, st'. split; [exact Hp|]. rewrite Hch. split.
  - intros Hne. apply truthy_true in Hne. rewrite Hne. reflexivity.
  - intros He. apply truthy_false in He. rewrite He. reflexivity.
Qed.

Lemma channel_follows_tag_witness :
  exists rel st',
    prepare Sample.all_good "1.2.3" (start Sample.edited_manifest) = (Ok rel, st') /\
    ("1.2.3" <> "" -> channel rel = CHANNEL_STABLE) /\
    ("1.2.3" = "" -> channel rel = CHANNEL_BLEEDING_EDGE).
Proof.
  apply (channel_follows_tag Sample.all_good "1.2.3" (start Sample.edited_manifest)).
  reflexivity.
Defined.

Lemma no_write_in (evs : list Event) :
  forallb (fun e => match e with EWrite _ _ => false | _ => true end) evs = true ->
  forall p r, ~ In (EWrite p r) evs.
Proof.
  intros H p r Hin. rewrite forallb_forall in H. apply H in Hin. discriminate.
Qed.

(** C4. With a committed manifest that has a version element: on the
    BleedingEdge channel the released version is the text of that element,
    a dot and the commit name that [git rev-parse HEAD] printed, and the
    manifest on disk is rewritten with that text in its version element; on
    the Stable channel the released version is the text of the element and
    the manifest on disk is the committed one, nothing being written. *)
Theorem version_by_channel (w : World) (tag : string) (m : FileContent)
        (root version : Element) :
  checkout_before_rc w = 0 ->
  committed w = Xml root ->
  find root "version" = Some version ->
  (tag = "" ->
   forall output, rev_parse w = (0, output) ->
   let released := Py.str_opt (text_of version) ++ "." ++ Py.strip output in
   exists rel st',
     prepare w tag (start m) = (Ok rel, st') /\
     channel rel = CHANNEL_BLEEDING_EDGE /\
     version_text rel = Some released /\
     disk st' = Xml (assign_text root "version" released) /\
     option_map text_of (version_of (disk st')) = Some (Some released) /\
     In (EWrite PLUGIN_XML (assign_text root "version" released)) (trace st')) /\
  (tag <> "" ->
   exists rel st',
     prepare w tag (start m) = (Ok rel, st') /\
     channel rel = CHANNEL_STABLE /\
     version_text rel = text_of version /\
     disk st' = committed w /\
     forall p r, ~ In (EWrite p r) (trace st')).
Proof.
  intros Hrc Hc Hf. split.
  - intros -> output Hr released.
    eexists _, _. split; [apply (prepare_bleeding_edge w _ root version output); assumption|].
    cbn [channel version_text disk trace start]. fold released.
    repeat split.
    + unfold version_of. rewrite (find_assign_text root "version" released version Hf).
      reflexivity.
    + cbn. auto 6.
  - intros Hne%truthy_true.
    eexists _, _. split; [apply (prepare_stable w tag _ root version); assumption|].
    cbn [channel version_text disk trace start]. repeat split; auto.
    apply no_write_in. reflexivity.
Qed.

Lemma version_by_channel_witness :
  exists rel st',
    prepare Sample.all_good "" (start Sample.edited_manifest) = (Ok rel, st') /\
    channel rel = CHANNEL_BLEEDING_EDGE /\
    version_text rel = Some "1.2.3.abcd123" /\
    disk st' = Xml (Sample.plugin_xml "1.2.3.abcd123") /\
    option_map text_of (version_of (disk st')) = Some (Some "1.2.3.abcd123") /\
    In (EWrite PLUGIN_XML (Sample.plugin_xml "1.2.3.abcd123")) (trace st').
Proof.
  exact (proj1 (version_by_channel Sample.all_good "" Sample.edited_manifest
                  (Sample.plugin_xml "1.2.3") (Elem "version" (Some "1.2.3") [])
                  eq_refl eq_refl eq_refl)
           eq_refl _ eq_refl).
Defined.

(** C5. The artifact is named after the released version:
    [pants_<version>.zip], the prefix of this plugin being [pants].  With
    version 1.2.3 in the manifest and commit abcd123, a BleedingEdge release
    has version 1.2.3.abcd123 and artifact [pants_1.2.3.abcd123.zip]. *)
Theorem artifact_name_from_version :
  (forall (w : World) (tag : string) (st : State),
      ready w tag = true ->
      exists rel st',
        prepare w tag st = (Ok rel, st') /\
        zip_name rel = "pants" ++ "_" ++ Py.str_opt (version_text rel) ++ ".zip") /\
  (forall (w : World) (st : State) (root : Element) (kids : list Element)
          (output : string),
      checkout_before_rc w = 0 ->
      committed w = Xml root ->
      find root "version" = Some (Elem "version" (Some "1.2.3") kids) ->
      rev_parse w = (0, output) ->
      Py.strip output = "abcd123" ->
      exists rel st',
        prepare w "" st = (Ok rel, st') /\
        version_text rel = Some "1.2.3.abcd123" /\
        zip_name rel = "pants_1.2.3.abcd123.zip").
Proof.
  split.
  - intros w tag st H.
    destruct (ready_prepare w tag st H) as (rel & st' & Hp & _ & Hz).
    exists rel, st'. split; [exact Hp|exact Hz].
  - intros w st root kids output Hrc Hc Hf Hr Hs.
    eexists _, _. split; [eapply (prepare_bleeding_edge w st root); eassumption|].
    cbn [version_text zip_name text_of Py.str_opt]. rewrite Hs. split; reflexivity.
Qed.

Lemma artifact_name_from_version_witness :
  exists rel st',
    prepare Sample.all_good "" (start Sample.edited_manifest) = (Ok rel, st') /\
    version_text rel = Some "1.2.3.abcd123" /\
    zip_name rel = "pants_1.2.3.abcd123.zip".
Proof.
  exact (proj2 artifact_name_from_version Sample.all_good
           (start Sample.edited_manifest) (Sample.plugin_xml "1.2.3") [] _
           eq_refl eq_refl eq_refl eq_refl eq_refl).
Defined.

(** ** The fatal precondition *)

(** C6. When the manifest that the checkout puts in place has no version
    element, the run logs the error and exits with code 1; the checkout is
    the only command it ever spawned, so nothing was built, zipped or
    uploaded. *)
Theorem missing_version_is_fatal (w : World) (tag : string) (m : FileContent)
        (root : Element) :
  checkout_before_rc w = 0 ->
  committed w = Xml root ->
  find root "version" = None ->
  outcome (run w tag m) = Raise (SystemExit 1) /\
  exit_code (run w tag m) = 1 /\
  events (run w tag m)
  = [ERun checkout_cmd;
     ELog ERROR "version tag not found in resources/META-INF/plugin.xml"] /\
  (forall cmd, In (ERun cmd) (events (run w tag m)) -> cmd = checkout_cmd).
Proof.
  intros Hrc%Z.eqb_eq Hc Hf.
  assert (E : run w tag m
              = (Raise (SystemExit 1),
                 mkState (Xml root)
                   [ERun checkout_cmd;
                    ELog ERROR "version tag not found in resources/META-INF/plugin.xml"])).
  { script_unfold. script_simpl. rewrite Hrc, Hc. script_simpl.
    rewrite Hf. script_simpl. reflexivity. }
  rewrite E. unfold outcome, exit_code, events. cbn [fst snd trace exit_status].
  repeat split.
  intros cmd [H|[H|[]]]; [injection H; auto | discriminate].
Qed.

Lemma missing_version_is_fatal_witness :
  exit_code (run Sample.unversioned "" Sample.edited_manifest) = 1.
Proof.
  exact (proj1 (proj2 (missing_version_is_fatal Sample.unversioned ""
                         Sample.edited_manifest Sample.no_version_xml
                         eq_refl eq_refl eq_refl))).
Defined.

(** ** The manifest around packaging *)

Ltac absurd_event H :=
  repeat (destruct H as [H|H]);
  try contradiction;
  try discriminate H;
  try (exfalso; cbv in H; discriminate H).

Ltac split_trace_at k :=
  match goal with
  | |- exists pre post, ?L = _ /\ _ =>
      exists (firstn k L), (skipn (S k) L);
      split; [reflexivity | cbn; auto 20]
  end.

(** C1, as the script has it.  When the checkout that closes packaging
    succeeds, the manifest after the run is the committed manifest: it is
    the manifest of before the run if that one had no uncommitted change,
    and the committed one whenever the opening checkout succeeded too.
    This holds whether the build, the packaging, the upload or the
    verification succeed or fail.  And the restore always runs: in every
    run that spawned the build command, a checkout of the manifest is
    spawned later. *)
Theorem manifest_restored (w : World) (tag : string) (m : FileContent) :
  (checkout_after_rc w = 0 -> m = committed w ->
   manifest_after (run w tag m) = m) /\
  (checkout_before_rc w = 0 -> checkout_after_rc w = 0 ->
   manifest_after (run w tag m) = committed w) /\
  (In (ERun build_cmd) (events (run w tag m)) ->
   exists pre post,
     events (run w tag m) = (pre ++ ERun build_cmd :: post)%list /\
     In (ERun checkout_cmd) post).
Proof.
  split; [|split].
  - intros Ha%Z.eqb_eq ->. revert Ha. script_cases; congruence.
  - intros Hb%Z.eqb_eq Ha%Z.eqb_eq. revert Hb Ha. script_cases; congruence.
  - script_cases; intros H;
      first [ solve [absurd_event H]
            | split_trace_at 3%nat
            | split_trace_at 6%nat ].
Qed.

Lemma manifest_restored_witness :
  manifest_after (run Sample.packaging_fails "" (committed Sample.packaging_fails))
  = committed Sample.packaging_fails.
Proof.
  exact (proj1 (manifest_restored Sample.packaging_fails ""
                  (committed Sample.packaging_fails)) eq_refl eq_refl).
Defined.

(** C1 as worded fails on two inputs.  A manifest with an uncommitted edit
    is replaced by the committed one, even when every step succeeds; and
    when the checkout after packaging fails, the manifest keeps the bumped
    version. *)
Lemma manifest_not_restored :
  manifest_after (run Sample.all_good "" Sample.edited_manifest)
  <> Sample.edited_manifest /\
  manifest_after (run Sample.restore_fails "" (committed Sample.restore_fails))
  <> committed Sample.restore_fails.
Proof.
  split; vm_compute; discriminate.
Qed.

(** ** The exit status *)

(** C2 as worded fails: with a version in the manifest and a commit name
    resolved, a packaging command that fails ends the run with an uncaught
    [CalledProcessError] and exit code 1, not 0. *)
Lemma packaging_failure_exit_code :
  let w := Sample.packaging_fails in
  let r := run w "" (committed w) in
  has_version (committed w) = true /\
  fst (rev_parse w) = 0 /\
  outcome r = Raise (CalledProcessError 12 (packaging_cmd "pants_1.2.3.abcd123.zip")) /\
  exit_code r = 1 /\
  exit_code r <> 0.
Proof.
  vm_compute. repeat split; discriminate.
Qed.

(** C2, as the script has it.  On either channel the run exits with code 1
    when a step whose error the script lets through fails: the checkout
    before or after packaging, reading the version from the manifest,
    resolving the commit name on the BleedingEdge channel, the build, the
    packaging, or a missing USERNAME or PASSWORD variable.  On the
    BleedingEdge channel it exits with code 0 when all of these succeed,
    whatever the uploader returns and whatever the registry page shows:
    upload and verification failures are only logged. *)
Theorem exit_code_by_steps (w : World) (tag : string) (m : FileContent) :
  (steps_succeed w tag = false -> exit_code (run w tag m) = 1) /\
  (steps_succeed w tag = true -> tag = "" -> exit_code (run w tag m) = 0).
Proof.
  unfold steps_succeed, ready, has_version, has_key, version_of. split.
  - script_cases; cbn; congruence.
  - intros H ->. revert H. script_cases; cbn; congruence.
Qed.

Lemma exit_code_by_steps_witness :
  exit_code (run Sample.packaging_fails "" Sample.edited_manifest) = 1 /\
  exit_code (run (with_upload_rc Sample.all_good 1) "" Sample.edited_manifest) = 0.
Proof.
  split.
  - exact (proj1 (exit_code_by_steps Sample.packaging_fails ""
                    Sample.edited_manifest) eq_refl).
  - exact (proj2 (exit_code_by_steps (with_upload_rc Sample.all_good 1) ""
                    Sample.edited_manifest) eq_refl eq_refl).
Defined.

(** ** Upload and verification *)

Lemma upload_returns (w : World) (rel : Release) (st : State) (u p : string) :
  lookup "USERNAME" (environ w) = Some u ->
  lookup "PASSWORD" (environ w) = Some p ->
  upload w rel st
  = (Ok tt,
     mkState (disk st)
       (trace st ++
        [ELog INFO "Uploading...";
         ERun (upload_cmd (channel rel) u p (zip_name rel))])).
Proof.
  intros Hu Hp. script_unfold. rewrite Hu, Hp. script_simpl.
  rewrite <- app_assoc. reflexivity.
Qed.

(** C7. The return code of the upload command is thrown away.  A run is
    the same, outcome, manifest and trace, whatever code the uploader
    returns; the upload step itself ends normally for every code once the
    credentials are found; and every run that spawned the uploader went on
    into the verification: either the verification command was spawned
    next, or formatting it raised [NameError]. *)
Theorem upload_code_ignored (w : World) (tag : string) (m : FileContent) (rc : Z) :
  run (with_upload_rc w rc) tag m = run w tag m /\
  (forall (rel : Release) (st : State) (u p : string),
      lookup "USERNAME" (environ w) = Some u ->
      lookup "PASSWORD" (environ w) = Some p ->
      upload (with_upload_rc w rc) rel st
      = (Ok tt,
         mkState (disk st)
           (trace st ++
            [ELog INFO "Uploading...";
             ERun (upload_cmd (channel rel) u p (zip_name rel))]))) /\
  (forall c u p z,
      In (ERun (upload_cmd c u p z)) (events (run (with_upload_rc w rc) tag m)) ->
      (exists s pre post,
          events (run (with_upload_rc w rc) tag m)
          = (pre ++ ERun (upload_cmd c u p z) :: ERun (verify_cmd s) :: post)%list) \/
      outcome (run (with_upload_rc w rc) tag m) = Raise (NameError "sha")).
Proof.
  split; [|split].
  - unfold with_upload_rc. script_cases; reflexivity.
  - intros rel st u p Hu Hp. apply upload_returns; assumption.
  - intros c u p z. unfold with_upload_rc. script_cases; intros H.
    all: try solve [absurd_event H].
    all: try solve [right; reflexivity].
    all: left; repeat (destruct H as [H|H]);
      first [ contradiction
            | discriminate H
            | exfalso; cbv in H; discriminate H
            | rewrite <- H;
              match goal with
              | |- exists s pre post, ?L = _ =>
                  eexists _, (firstn 13 L), (skipn 15 L); reflexivity
              end ].
Qed.

Lemma upload_code_ignored_witness :
  upload (with_upload_rc Sample.all_good 3)
    (mkRelease CHANNEL_STABLE (Some "1.2.3") None "pants_1.2.3.zip") (start Absent)
  = (Ok tt,
     mkState Absent
       [ELog INFO "Uploading...";
        ERun (upload_cmd CHANNEL_STABLE "bot" "s3cret" "pants_1.2.3.zip")]).
Proof.
  exact (proj1 (proj2 (upload_code_ignored Sample.all_good "" Absent 3))
           (mkRelease CHANNEL_STABLE (Some "1.2.3") None "pants_1.2.3.zip")
           (start Absent) "bot" "s3cret" eq_refl eq_refl).
Defined.

(** The verification step, when the commit name is bound: the command is
    spawned, and the log record follows [grep]'s verdict on the page. *)
Lemma verify_by_page (w : World) (rel : Release) (st : State) (s : string) :
  sha rel = Some s ->
  verify w rel st
  = (Ok tt,
     mkState (disk st)
       (trace st ++
        [ERun (verify_cmd s);
         if Sh.grep s (registry_page w) =? 0
         then ELog INFO "Deploy succeeded."
         else ELog ERROR "Deploy failed: not available on https://plugins.jetbrains.com/plugin/7412"])).
Proof.
  intros Hs. unfold verify. rewrite Hs. script_unfold. script_simpl.
  destruct (Sh.grep s (registry_page w) =? 0); script_simpl;
    rewrite <- app_assoc; reflexivity.
Qed.

(** *** What [grep] decides

    For a pattern that has no line break, as a commit name, a line of the
    page contains the pattern exactly when the page does. *)

Lemma lines_cons (s : string) : exists l ls, Sh.lines s = l :: ls.
Proof.
  induction s as [|c r IH]; cbn [Sh.lines].
  - exists "", []. reflexivity.
  - destruct (Ascii.eqb c Sh.newline).
    + exists "", (Sh.lines r). reflexivity.
    + destruct IH as (l & ls & ->). exists (String c l), ls. reflexivity.
Qed.

Lemma prefix_first_line (pat s l : string) (ls : list string) :
  Sh.newline_free pat = true ->
  Sh.lines s = l :: ls ->
  String.prefix pat s = String.prefix pat l.
Proof.
  revert s l ls. induction pat as [|a p IH]; intros s l ls Hnf Hl.
  - destruct s, l; reflexivity.
  - cbn in Hnf. apply andb_prop in Hnf as [Ha Hp].
    apply negb_true_iff in Ha.
    destruct s as [|b r]; cbn [Sh.lines] in Hl.
    + injection Hl as <- _. reflexivity.
    + destruct (Ascii.eqb b Sh.newline) eqn:Hb.
      * injection Hl as <- _. apply Ascii.eqb_eq in Hb. subst b.
        cbn [String.prefix].
        destruct (ascii_dec a Sh.newline) as [->|_]; [|reflexivity].
        rewrite Ascii.eqb_refl in Ha. discriminate.
      * destruct (lines_cons r) as (l' & ls' & Hr). rewrite Hr in Hl.
        injection Hl as <- _. cbn [String.prefix].
        destruct (ascii_dec a b); [|reflexivity].
        apply (IH r l' ls' Hp Hr).
Qed.

Lemma line_contains (pat s : string) :
  pat <> "" ->
  Sh.newline_free pat = true ->
  existsb (Sh.contains pat) (Sh.lines s) = Sh.contains pat s.
Proof.
  intros Hne Hnf.
  assert (Hempty : Sh.contains pat "" = false).
  { destruct pat; [contradiction|reflexivity]. }
  induction s as [|c r IH].
  - cbn [Sh.lines existsb]. apply orb_false_r.
  - pose proof (prefix_first_line pat (String c r)) as Hpre.
    cbn [Sh.lines] in *. destruct (Ascii.eqb c Sh.newline) eqn:Hc.
    + cbn [existsb]. rewrite Hempty, IH. cbn [orb Sh.contains].
      rewrite (Hpre _ _ Hnf eq_refl).
      destruct pat; [contradiction|reflexivity].
    + destruct (lines_cons r) as (l & ls & Hr). rewrite Hr in *.
      cbn [existsb Sh.contains] in *.
      rewrite (Hpre _ _ Hnf eq_refl), <- IH, orb_assoc. reflexivity.
Qed.

Lemma grep_finds (pat page : string) :
  pat <> "" ->
  Sh.newline_free pat = true ->
  Sh.grep pat page = 0 <-> Sh.contains pat page = true.
Proof.
  intros Hne Hnf. unfold Sh.grep.
  apply String.eqb_neq in Hne. rewrite Hne, (line_contains pat page); auto.
  - destruct (Sh.contains pat page); split; congruence.
  - apply String.eqb_neq. exact Hne.
Qed.

Lemma hex_digit_not_newline (c : ascii) :
  is_hex_digit c = true -> Ascii.eqb c Sh.newline = false.
Proof.
  destruct c as [[] [] [] [] [] [] [] []]; cbv; congruence.
Qed.

Lemma hex_name_plain (s : string) :
  hex_name s = true -> s <> "" /\ Sh.newline_free s = true.
Proof.
  unfold hex_name. intros [Hne Hall]%andb_prop. split.
  - apply String.eqb_neq. apply negb_true_iff. exact Hne.
  - clear Hne. induction s as [|c r IH]; [reflexivity|].
    cbn [all_chars] in Hall. apply andb_prop in Hall as [Hc Hr].
    cbn [Sh.newline_free]. rewrite (hex_digit_not_newline c Hc), (IH Hr).
    reflexivity.
Qed.

(** On the BleedingEdge channel the verification does what line 110-118
    set out to do.  When every earlier step succeeds and the commit name
    is a hexadecimal word, as git prints it, the run spawns [curl | grep]
    with that name, ends with exit code 0, and logs success exactly when
    the page contains the commit name, failure exactly when it does
    not. *)
Lemma bleeding_edge_verified (w : World) (m : FileContent) :
  let name := Py.strip (snd (rev_parse w)) in
  steps_succeed w "" = true ->
  hex_name name = true ->
  exit_code (run w "" m) = 0 /\
  In (ERun (verify_cmd name)) (events (run w "" m)) /\
  (In (ELog INFO "Deploy succeeded.") (events (run w "" m))
   <-> Sh.contains name (registry_page w) = true) /\
  (In (ELog ERROR "Deploy failed: not available on https://plugins.jetbrains.com/plugin/7412")
      (events (run w "" m))
   <-> Sh.contains name (registry_page w) = false).
Proof.
  intros name Hs Hhex.
  destruct (hex_name_plain name Hhex) as [Hne Hnf].
  pose proof (grep_finds name (registry_page w) Hne Hnf) as Hg.
  rewrite <- Z.eqb_eq in Hg.
  assert (Hg' : (Sh.grep name (registry_page w) =? 0) = false
                <-> Sh.contains name (registry_page w) = false).
  { destruct (Sh.grep name (registry_page w) =? 0),
      (Sh.contains name (registry_page w)); intuition congruence. }
  rewrite <- Hg, <- Hg'. clear Hg Hg' Hne Hnf Hhex.
  revert Hs. unfold steps_succeed, ready, has_version, has_key, version_of.
  subst name.
  script_cases; cbn [fst snd]; intros Hs; try discriminate Hs.
  all: repeat split; auto 20; try discriminate.
  all: intros H; absurd_event H.
Qed.

(** C8 on a Stable release.  With the tag 1.2.3 and every command
    succeeding, the run spawns the uploader and then stops on an uncaught
    [NameError]: no verification command is spawned, no verification record
    is logged, and the exit code is 1. *)
Theorem stable_release_not_verified :
  let r := run Sample.all_good "1.2.3" (committed Sample.all_good) in
  outcome r = Raise (NameError "sha") /\
  exit_code r = 1 /\
  In (ERun (upload_cmd CHANNEL_STABLE "bot" "s3cret" "pants_1.2.3.zip")) (events r) /\
  ~ In (ERun (verify_cmd "abcd123")) (events r) /\
  ~ In (ELog INFO "Deploy succeeded.") (events r) /\
  ~ In (ELog ERROR "Deploy failed: not available on https://plugins.jetbrains.com/plugin/7412")
       (events r).
Proof.
  vm_compute. repeat split; auto 20.
  all: intros H; absurd_event H.
Qed.

(** ** The manifest that is read *)

(** C9. The first thing a run does is the checkout of the manifest, and
    nothing is read before it.  When the checkout succeeds it leaves the
    committed manifest (what [git checkout] restores) in the working tree,
    and that is the file the script parses: the version released is read
    from the committed manifest, as it stands on a tagged run and with the
    commit name appended otherwise, whatever the working tree held before
    the run; if the committed manifest has no version there is no release,
    even when the manifest of before the run had one.  The outcome and the
    trace of a run do not depend on the pre-run manifest, and after a
    successful checkout the whole run is the run from the committed
    manifest. *)
Theorem committed_manifest_is_read (w : World) (tag : string) (m m' : FileContent) :
  (exists rest, events (run w tag m) = ERun checkout_cmd :: rest) /\
  outcome (run w tag m) = outcome (run w tag m') /\
  events (run w tag m) = events (run w tag m') /\
  (checkout_before_rc w = 0 ->
   git_checkout w (checkout_before_rc w) (start m)
   = (Ok tt, mkState (committed w) [ERun checkout_cmd]) /\
   run w tag m = run w tag (committed w)) /\
  (ready w tag = true ->
   forall root v,
     committed w = Xml root ->
     find root "version" = Some v ->
     exists rel st',
       prepare w tag (start m) = (Ok rel, st') /\
       (tag <> "" ->
        version_text rel = text_of v /\ disk st' = committed w) /\
       (tag = "" ->
        version_text rel
        = Some (Py.str_opt (text_of v) ++ "." ++ Py.strip (snd (rev_parse w))))) /\
  (checkout_before_rc w = 0 ->
   version_of (committed w) = None ->
   forall rel st', prepare w tag (start m) <> (Ok rel, st')).
Proof.
  split; [|split; [|split; [|split; [|split]]]].
  - script_cases; eexists; reflexivity.
  - script_cases; reflexivity.
  - script_cases; reflexivity.
  - intros H%Z.eqb_eq. split.
    + script_unfold. script_simpl. rewrite H. reflexivity.
    + revert H. script_cases; congruence.
  - intros H root v Hc Hf.
    destruct (ready_inv _ _ H) as (Hrc & _ & Hs).
    destruct (Py.truthy tag) eqn:Ht.
    + eexists _, _.
      split; [apply (prepare_stable w tag (start m) root v); assumption|].
      cbn [version_text disk]. apply truthy_true in Ht.
      split; [intros _; split; [reflexivity|symmetry; exact Hc]|].
      intros ->. contradiction.
    + apply truthy_false in Ht. subst tag. destruct (Hs eq_refl) as [out Hr].
      eexists _, _.
      split; [apply (prepare_bleeding_edge w (start m) root v out); assumption|].
      cbn [version_text]. rewrite Hr.
      split; [intros Hne; contradiction|]. intros _. reflexivity.
  - intros H%Z.eqb_eq Hv rel st'. unfold version_of in Hv.
    script_unfold. script_simpl. rewrite H. script_simpl.
    destruct (committed w) as [| raw | root]; script_simpl; try discriminate.
    rewrite Hv. script_simpl. discriminate.
Qed.

Lemma committed_manifest_is_read_witness :
  exists rel st',
    prepare Sample.all_good "" (start Sample.edited_manifest) = (Ok rel, st') /\
    ("" <> "" ->
     version_text rel = Some "1.2.3" /\ disk st' = committed Sample.all_good) /\
    ("" = "" -> version_text rel = Some "1.2.3.abcd123").
Proof.
  exact (proj1 (proj2 (proj2 (proj2 (proj2
           (committed_manifest_is_read Sample.all_good ""
              Sample.edited_manifest Absent)))))
           eq_refl (Sample.plugin_xml "1.2.3") (Elem "version" (Some "1.2.3") [])
           eq_refl eq_refl).
Defined.

(** ** The commit name on the Stable channel *)

(** C10. On a run with a tag, [git rev-parse HEAD] is never spawned; and if
    the run gets as far as the upload, it ends on an uncaught [NameError]
    for [sha], with exit code 1, without spawning the verification command
    and without logging a verification record. *)
Theorem stable_run_name_error (w : World) (tag : string) (m : FileContent) :
  tag <> "" ->
  ~ In (ERun "git rev-parse HEAD") (events (run w tag m)) /\
  (In (ELog INFO "Uploading...") (events (run w tag m)) ->
   outcome (run w tag m) = Raise (NameError "sha") /\
   exit_code (run w tag m) = 1 /\
   (forall s, ~ In (ERun (verify_cmd s)) (events (run w tag m))) /\
   ~ In (ELog INFO "Deploy succeeded.") (events (run w tag m)) /\
   ~ In (ELog ERROR "Deploy failed: not available on https://plugins.jetbrains.com/plugin/7412")
        (events (run w tag m))).
Proof.
  intros Ht%truthy_true. split.
  - revert Ht. script_cases; intros Ht H; try discriminate Ht; absurd_event H.
  - revert Ht. script_cases; intros Ht H; try discriminate Ht.
    all: try solve [absurd_event H].
    all: split; [reflexivity|split; [reflexivity|]].
    all: split; [intros ? H'|split; intros H']; absurd_event H'.
Qed.

Lemma stable_run_name_error_witness :
  outcome (run Sample.all_good "1.2.3" Sample.edited_manifest) = Raise (NameError "sha").
Proof.
  refine (proj1 (proj2 (stable_run_name_error Sample.all_good "1.2.3"
                          Sample.edited_manifest _) _)).
  - discriminate.
  - vm_compute. auto 20.
Defined.


(** * Further properties of the script *)

(** ** The manifest tree under the version bump (lines 46 and 59-61) *)

Lemma find_child_assign_other (path new other : string) (kids : list Element) :
  other <> path ->
  find_child other (assign_text_child path new kids) = find_child other kids.
Proof.
  intros Hne. induction kids as [|[t x cs] rest IH]; [reflexivity|].
  cbn [assign_text_child]. destruct (t =? path)%string eqn:E.
  - apply String.eqb_eq in E. subst t. cbn [find_child tag_of].
    apply not_eq_sym in Hne. apply String.eqb_neq in Hne. rewrite Hne.
    reflexivity.
  - cbn [find_child tag_of]. destruct (t =? other)%string; [reflexivity|exact IH].
Qed.

Lemma assign_text_child_length (path new : string) (kids : list Element) :
  length (assign_text_child path new kids) = length kids.
Proof.
  induction kids as [|[t x cs] rest IH]; [reflexivity|].
  cbn [assign_text_child]. destruct (t =? path)%string; cbn [length]; congruence.
Qed.

Lemma assign_text_child_tags (path new : string) (kids : list Element) :
  map tag_of (assign_text_child path new kids) = map tag_of kids.
Proof.
  induction kids as [|[t x cs] rest IH]; [reflexivity|].
  cbn [assign_text_child]. destruct (t =? path)%string; cbn [map tag_of]; congruence.
Qed.

(** Assigning the text of the element that [find] returned and looking
    it up again gives the same element with the new text, its tag and
    children kept; every element under another tag is found as before; the
    root keeps its tag, its text and the tags of its children in order. *)
Theorem bump_touches_version_only (root v : Element) (path new : string) :
  find root path = Some v ->
  find (assign_text root path new) path
  = Some (Elem (tag_of v) (Some new) (children_of v)) /\
  (forall other, other <> path ->
                 find (assign_text root path new) other = find root other) /\
  tag_of (assign_text root path new) = tag_of root /\
  text_of (assign_text root path new) = text_of root /\
  map tag_of (children_of (assign_text root path new))
  = map tag_of (children_of root).
Proof.
  intros Hf. destruct root as [t x cs]. unfold find in *.
  cbn [assign_text children_of tag_of text_of] in *.
  split; [apply find_child_assign; exact Hf|].
  split; [intros other Hne; apply find_child_assign_other; exact Hne|].
  split; [reflexivity|]. split; [reflexivity|].
  apply assign_text_child_tags.
Qed.

Lemma bump_touches_version_only_witness :
  find (assign_text Cases.two_versions_xml "version" "1.2.3.abcd123") "version"
  = Some (Elem "version" (Some "1.2.3.abcd123") []) /\
  find (assign_text Cases.two_versions_xml "version" "1.2.3.abcd123") "change-notes"
  = Some (Elem "change-notes" (Some "Faster imports") []).
Proof.
  pose proof (bump_touches_version_only Cases.two_versions_xml
                (Elem "version" (Some "1.2.3") []) "version" "1.2.3.abcd123"
                eq_refl) as (H1 & H2 & _).
  split; [exact H1|].
  rewrite (H2 "change-notes"); [reflexivity|discriminate].
Defined.

Lemma assign_text_child_first (path new : string) (before after : list Element)
      (v : Element) :
  find_child path before = None ->
  tag_of v = path ->
  assign_text_child path new (before ++ v :: after)
  = (before ++ Elem (tag_of v) (Some new) (children_of v) :: after)%list.
Proof.
  intros Hb Hv. induction before as [|[t x cs] rest IH].
  - destruct v as [t x cs]. cbn in *. subst t. rewrite String.eqb_refl. reflexivity.
  - cbn [find_child tag_of] in Hb. cbn [app assign_text_child].
    destruct (t =? path)%string; [discriminate|].
    rewrite (IH Hb). reflexivity.
Qed.

Lemma find_child_first (path : string) (before after : list Element) (v : Element) :
  find_child path before = None ->
  tag_of v = path ->
  find_child path (before ++ v :: after) = Some v.
Proof.
  intros Hb Hv. induction before as [|k rest IH].
  - cbn. rewrite Hv, String.eqb_refl. reflexivity.
  - cbn [find_child] in Hb. cbn [app find_child].
    destruct (tag_of k =? path)%string; [discriminate|]. exact (IH Hb).
Qed.

(** When several children carry the tag, [find] returns the first of them
    and the assignment changes that one only: the children before it and
    after it, later elements with the same tag included, stay as they
    are. *)
Theorem bump_changes_first_match (t : string) (x : option string)
        (before after : list Element) (v : Element) (path new : string) :
  find_child path before = None ->
  tag_of v = path ->
  find (Elem t x (before ++ v :: after)) path = Some v /\
  assign_text (Elem t x (before ++ v :: after)) path new
  = Elem t x (before ++ Elem (tag_of v) (Some new) (children_of v) :: after).
Proof.
  intros Hb Hv. split.
  - apply find_child_first; assumption.
  - cbn [assign_text]. rewrite assign_text_child_first; auto.
Qed.

Lemma bump_changes_first_match_witness :
  assign_text Cases.two_versions_xml "version" "1.2.3.abcd123"
  = Elem "idea-plugin" None
      [ Elem "name" (Some "Pants Support") [];
        Elem "version" (Some "1.2.3.abcd123") [];
        Elem "change-notes" (Some "Faster imports") [];
        Elem "version" (Some "0.0.1") [] ].
Proof.
  exact (proj2 (bump_changes_first_match "idea-plugin" None
                  [Elem "name" (Some "Pants Support") []]
                  [Elem "change-notes" (Some "Faster imports") [];
                   Elem "version" (Some "0.0.1") []]
                  (Elem "version" (Some "1.2.3") []) "version" "1.2.3.abcd123"
                  eq_refl eq_refl)).
Defined.

(** ** Resolving the commit name (lines 21-29) *)

Lemma lstrip_word (s : string) (c : ascii) :
  Py.is_space c = false -> Py.lstrip (String c s) = String c s.
Proof.
  intros H. cbn [Py.lstrip]. rewrite H. reflexivity.
Qed.

Lemma rstrip_word_newline (s : string) :
  no_space s = true ->
  Py.rstrip (s ++ String Sh.newline "") = s.
Proof.
  unfold no_space. induction s as [|c r IH]; intros H.
  - reflexivity.
  - cbn [all_chars] in H. apply andb_prop in H as [Hc Hr].
    apply negb_true_iff in Hc.
    cbn [String.append Py.rstrip]. rewrite (IH Hr).
    destruct r; [rewrite Hc|]; reflexivity.
Qed.

Lemma strip_word_newline (s : string) :
  no_space s = true ->
  Py.strip (s ++ String Sh.newline "") = s.
Proof.
  intros H. unfold Py.strip. destruct s as [|c r]; [reflexivity|].
  pose proof H as H'. unfold no_space in H'. cbn [all_chars] in H'.
  apply andb_prop in H' as [Hc _]. apply negb_true_iff in Hc.
  cbn [String.append]. rewrite (lstrip_word _ c Hc).
  apply (rstrip_word_newline (String c r) H).
Qed.

(** When [git rev-parse HEAD] succeeds and prints an object name followed
    by a line break, [get_head_sha] returns the bare name: the line break
    does not get into the version, the artifact name or the [grep]
    pattern.  Nothing is logged and the manifest is not touched. *)
Theorem get_head_sha_returns_name (w : World) (st : State) (name : string) :
  rev_parse w = (0, name ++ String Sh.newline "") ->
  no_space name = true ->
  get_head_sha w st
  = (Ok name, mkState (disk st) (trace st ++ [ERun "git rev-parse HEAD"])).
Proof.
  intros Hr Hn. unfold get_head_sha. script_unfold. script_simpl.
  rewrite Hr. script_simpl.
  replace (Py.strip _) with name by (symmetry; exact (strip_word_newline name Hn)).
  reflexivity.
Qed.

Lemma get_head_sha_returns_name_witness :
  get_head_sha Sample.all_good (start Absent)
  = (Ok "abcd123", mkState Absent [ERun "git rev-parse HEAD"]).
Proof.
  exact (get_head_sha_returns_name Sample.all_good (start Absent) "abcd123"
           eq_refl eq_refl).
Defined.

(** ** Fatal errors before packaging *)

(** When the opening [git checkout] fails, the run stops there on its
    [CalledProcessError]: the manifest in the working tree is left as it
    was found, and no other command is spawned and nothing is logged. *)
Theorem checkout_refused_aborts (w : World) (tag : string) (m : FileContent) :
  checkout_before_rc w <> 0 ->
  run w tag m
  = (Raise (CalledProcessError (checkout_before_rc w) checkout_cmd),
     mkState m [ERun checkout_cmd]).
Proof.
  intros H%Z.eqb_neq. script_unfold. script_simpl. rewrite H. reflexivity.
Qed.

(** When the committed manifest is not well-formed XML, [ET.parse] raises
    and the run stops after the checkout, before any other command. *)
Theorem unparsable_manifest_aborts (w : World) (tag : string) (m : FileContent)
        (raw : string) :
  checkout_before_rc w = 0 ->
  committed w = NotXml raw ->
  run w tag m = (Raise ParseError, mkState (NotXml raw) [ERun checkout_cmd]).
Proof.
  intros Hrc%Z.eqb_eq Hc. script_unfold. script_simpl.
  rewrite Hrc, Hc. script_simpl. reflexivity.
Qed.

(** On a run without tag, when [git rev-parse HEAD] returns a non-zero
    code the run logs that the command failed and exits with code 1.  This
    happens before the manifest is rewritten and before the [try] block:
    the working tree holds the committed manifest and nothing was built. *)
Theorem rev_parse_failure_is_fatal (w : World) (m : FileContent)
        (root version : Element) (rc : Z) (output : string) :
  checkout_before_rc w = 0 ->
  committed w = Xml root ->
  find root "version" = Some version ->
  rev_parse w = (rc, output) ->
  rc <> 0 ->
  run w "" m
  = (Raise (SystemExit 1),
     mkState (Xml root)
       [ERun checkout_cmd; ERun "git rev-parse HEAD";
        ELog ERROR "git rev-parse HEAD failed."]).
Proof.
  intros Hrc%Z.eqb_eq Hc Hf Hr Hne%Z.eqb_neq.
  script_unfold. script_simpl. rewrite Hrc, Hc. script_simpl.
  rewrite Hf, Hr. script_simpl. rewrite Hne. script_simpl. reflexivity.
Qed.

(** ** An empty version element *)

(** An empty version element has the text [None], which [format] prints as
    the word None: a tagged release is named [pants_None.zip], and an
    untagged one gets the version None.<commit>. *)
Theorem empty_version_element (w : World) (tag : string) (st : State)
        (root : Element) (t : string) (kids : list Element) :
  ready w tag = true ->
  committed w = Xml root ->
  find root "version" = Some (Elem t None kids) ->
  exists rel st',
    prepare w tag st = (Ok rel, st') /\
    (tag <> "" ->
     version_text rel = None /\ zip_name rel = "pants_None.zip") /\
    (tag = "" ->
     version_text rel = Some ("None." ++ Py.strip (snd (rev_parse w))) /\
     zip_name rel = "pants_None." ++ Py.strip (snd (rev_parse w)) ++ ".zip").
Proof.
  intros H Hc Hf.
  destruct (ready_inv _ _ H) as (Hrc & _ & Hs).
  destruct (Py.truthy tag) eqn:Ht.
  - eexists _, _. split; [eapply (prepare_stable w tag st root); eassumption|].
    apply truthy_true in Ht. split; [intros _; split; reflexivity|].
    intros ->. contradiction.
  - apply truthy_false in Ht. subst tag. destruct (Hs eq_refl) as [out Hr].
    eexists _, _. split; [eapply (prepare_bleeding_edge w st root); eassumption|].
    rewrite Hr. split; [intros Hne; contradiction|].
    intros _. split; reflexivity.
Qed.

(** ** Failures around packaging *)

(** When the build command fails, the packaging command is never spawned
    and nothing is uploaded.  The run ends with exit code 1 on the build's
    [CalledProcessError] if the restore in the [finally] clause succeeds,
    and on the restore's own error, which replaces the build's, if it
    fails too. *)
Theorem build_failure (w : World) (tag : string) (m : FileContent) :
  ready w tag = true ->
  build_rc w <> 0 ->
  outcome (run w tag m)
  = (if checkout_after_rc w =? 0
     then Raise (CalledProcessError (build_rc w) build_cmd)
     else Raise (CalledProcessError (checkout_after_rc w) checkout_cmd)) /\
  exit_code (run w tag m) = 1 /\
  (forall z, ~ In (ERun (packaging_cmd z)) (events (run w tag m))) /\
  (forall c u p z, ~ In (ERun (upload_cmd c u p z)) (events (run w tag m))).
Proof.
  intros H Hb%Z.eqb_neq. revert H Hb.
  unfold ready, has_version, version_of.
  script_cases; cbn [fst andb orb]; intros H Hb; try discriminate.
  all: repeat split; intros; intros H'; absurd_event H'.
Qed.

(** The credentials are read from the environment only after packaging:
    when USERNAME or PASSWORD is not set, the artifact has been built and
    the manifest restored, then the run stops on a [KeyError] for the first
    missing variable, USERNAME before PASSWORD, without logging the upload
    or spawning the uploader. *)
Theorem credentials_missing (w : World) (tag : string) (m : FileContent) :
  ready w tag = true ->
  build_rc w = 0 -> packaging_rc w = 0 -> checkout_after_rc w = 0 ->
  has_key "USERNAME" (environ w) && has_key "PASSWORD" (environ w) = false ->
  outcome (run w tag m)
  = Raise (KeyError (if has_key "USERNAME" (environ w)
                     then "PASSWORD" else "USERNAME")) /\
  manifest_after (run w tag m) = committed w /\
  In (ERun build_cmd) (events (run w tag m)) /\
  ~ In (ELog INFO "Uploading...") (events (run w tag m)) /\
  (forall c u p z, ~ In (ERun (upload_cmd c u p z)) (events (run w tag m))).
Proof.
  intros H Hb%Z.eqb_eq Hp%Z.eqb_eq Ha%Z.eqb_eq. revert H Hb Hp Ha.
  unfold ready, has_version, version_of, has_key.
  script_cases; cbn [fst andb orb]; intros H Hb Hp Ha Hk; try discriminate.
  all: split; [reflexivity|split; [congruence|]].
  all: split; [cbn; auto 20|].
  all: split; [intros H'|intros ? ? ? ? H']; absurd_event H'.
Qed.

Lemma checkout_refused_aborts_witness :
  run Cases.checkout_refused "" Sample.edited_manifest
  = (Raise (CalledProcessError 128 checkout_cmd),
     mkState Sample.edited_manifest [ERun checkout_cmd]).
Proof.
  exact (checkout_refused_aborts Cases.checkout_refused "" Sample.edited_manifest
           ltac:(discriminate)).
Defined.

Lemma unparsable_manifest_aborts_witness :
  outcome (run Cases.garbled_manifest "" Sample.edited_manifest) = Raise ParseError.
Proof.
  exact (f_equal fst (unparsable_manifest_aborts Cases.garbled_manifest ""
                        Sample.edited_manifest _ eq_refl eq_refl)).
Defined.

Lemma rev_parse_failure_is_fatal_witness :
  exit_code (run Cases.not_a_repository "" Sample.edited_manifest) = 1.
Proof.
  exact (f_equal exit_code
           (rev_parse_failure_is_fatal Cases.not_a_repository Sample.edited_manifest
              (Sample.plugin_xml "1.2.3") (Elem "version" (Some "1.2.3") [])
              128 "" eq_refl eq_refl eq_refl eq_refl ltac:(discriminate))).
Defined.

Lemma empty_version_element_witness :
  exists rel st',
    prepare Cases.empty_version "" (start Absent) = (Ok rel, st') /\
    ("" <> "" ->
     version_text rel = None /\ zip_name rel = "pants_None.zip") /\
    ("" = "" ->
     version_text rel = Some "None.abcd123" /\
     zip_name rel = "pants_None.abcd123.zip").
Proof.
  exact (empty_version_element Cases.empty_version "" (start Absent)
           Cases.empty_version_xml "version" [] eq_refl eq_refl eq_refl).
Defined.

Lemma build_failure_witness :
  outcome (run Cases.build_and_restore_fail "" Sample.edited_manifest)
  = Raise (CalledProcessError 128 checkout_cmd).
Proof.
  exact (proj1 (build_failure Cases.build_and_restore_fail ""
                  Sample.edited_manifest eq_refl ltac:(discriminate))).
Defined.

Lemma credentials_missing_witness :
  outcome (run Cases.no_password "" Sample.edited_manifest)
  = Raise (KeyError "PASSWORD").
Proof.
  exact (proj1 (credentials_missing Cases.no_password "" Sample.edited_manifest
                  eq_refl eq_refl eq_refl eq_refl eq_refl)).
Defined.

(** ** What a run never does *)

(** The uploader is spawned only once the build, the packaging and the
    restore have all succeeded, and the manifest the run leaves behind is
    then the committed one: the bumped version never outlives a run that
    uploaded. *)
Theorem upload_needs_restored_manifest (w : World) (tag : string) (m : FileContent)
        (c u p z : string) :
  In (ERun (upload_cmd c u p z)) (events (run w tag m)) ->
  build_rc w = 0 /\ packaging_rc w = 0 /\ checkout_after_rc w = 0 /\
  manifest_after (run w tag m) = committed w.
Proof.
  rewrite <- !Z.eqb_eq.
  script_cases; intros H; try solve [absurd_event H]; auto.
Qed.

(** The script calls [exit] only with code 1 and only before packaging: a
    run that ends on [SystemExit] has not written the manifest, which is
    the committed one, and has not spawned the build. *)
Theorem exit_only_before_packaging (w : World) (tag : string) (m : FileContent)
        (code : Z) :
  outcome (run w tag m) = Raise (SystemExit code) ->
  code = 1 /\
  manifest_after (run w tag m) = committed w /\
  (forall p r, ~ In (EWrite p r) (events (run w tag m))) /\
  ~ In (ERun build_cmd) (events (run w tag m)).
Proof.
  script_cases; intros H; try discriminate H.
  all: injection H as <-.
  all: split; [reflexivity|split; [congruence|]].
  all: split; [intros ? ? H'|intros H']; absurd_event H'.
Qed.

(** A run with a tag never exits with code 0: either an earlier step
    fails, or the run reaches line 114 where [sha] is unbound. *)
Theorem stable_run_exits_1 (w : World) (tag : string) (m : FileContent) :
  tag <> "" -> exit_code (run w tag m) = 1.
Proof.
  intros Ht%truthy_true. revert Ht.
  script_cases; intros Ht; try discriminate Ht; reflexivity.
Qed.


Lemma upload_needs_restored_manifest_witness :
  build_rc Sample.all_good = 0 /\ packaging_rc Sample.all_good = 0 /\
  checkout_after_rc Sample.all_good = 0 /\
  manifest_after (run Sample.all_good "" Sample.edited_manifest)
  = committed Sample.all_good.
Proof.
  apply (upload_needs_restored_manifest Sample.all_good "" Sample.edited_manifest
           CHANNEL_BLEEDING_EDGE "bot" "s3cret" "pants_1.2.3.abcd123.zip").
  vm_compute. auto 20.
Defined.

Lemma exit_only_before_packaging_witness :
  1 = 1 /\
  manifest_after (run Sample.unversioned "" Sample.edited_manifest)
  = committed Sample.unversioned /\
  (forall p r, ~ In (EWrite p r)
                 (events (run Sample.unversioned "" Sample.edited_manifest))) /\
  ~ In (ERun build_cmd) (events (run Sample.unversioned "" Sample.edited_manifest)).
Proof.
  exact (exit_only_before_packaging Sample.unversioned "" Sample.edited_manifest 1
           eq_refl).
Defined.

Lemma stable_run_exits_1_witness :
  exit_code (run Sample.all_good "1.2.3" Sample.edited_manifest) = 1.
Proof.
  exact (stable_run_exits_1 Sample.all_good "1.2.3" Sample.edited_manifest
           ltac:(discriminate)).
Defined.


(** ** The verification on the BleedingEdge channel *)

Lemma bleeding_edge_verified_witness :
  exit_code (run Cases.page_without_build "" Sample.edited_manifest) = 0 /\
  In (ELog ERROR "Deploy failed: not available on https://plugins.jetbrains.com/plugin/7412")
     (events (run Cases.page_without_build "" Sample.edited_manifest)).
Proof.
  pose proof (bleeding_edge_verified Cases.page_without_build Sample.edited_manifest
                eq_refl eq_refl) as (H0 & _ & _ & Hfail).
  split; [exact H0|]. apply Hfail. reflexivity.
Defined.
